(** * esCleaner: removal of aged Elasticsearch indices

    A shallow embedding of [scripts/esCleaner.py].  The script is a thin
    driver over two third-party packages, [elasticsearch] and [curator]:
    it builds a client from the command line, takes a snapshot of the
    cluster's indices, keeps those whose name carries a date older than
    four days, and deletes them.  The packages are not part of the
    repository, so the driver is modelled against an interface
    ([Collaborators]); a simulated cluster ([Sim]) implements that
    interface and is used to run the driver on concrete inputs. *)

From stdpp Require Import gmap strings list.
From Stdlib Require Import Ascii ZArith Lia.

Local Open Scope Z_scope.

(** ** Exceptions and results of library calls *)

(** Exceptions the libraries may raise.  The driver only ever names
    [curator.NoIndices]; every other class is opaque to it. *)
Inductive exn : Type :=
| NoIndices
| OtherError (what : string).

Global Instance exn_eq_dec : EqDecision exn.
Proof. solve_decision. Defined.

Inductive result (A : Type) : Type :=
| Returned (a : A)
| Raised (e : exn).
Arguments Returned {A} a.
Arguments Raised {A} e.

Definition error_of {A} (r : result A) : option exn :=
  match r with
  | Returned _ => None
  | Raised e => Some e
  end.

(** Keyword arguments of [IndexList.filter_by_age], as the driver
    passes them. *)
Record age_filter : Type := AgeFilter {
  source : string;
  direction : string;
  timestring : string;
  unit : string;
  unit_count : Z
}.

Global Instance age_filter_eq_dec : EqDecision age_filter.
Proof. solve_decision. Defined.

(** ** The collaborating libraries *)

(** [World] stands for everything outside the driver: the cluster, its
    clock and the objects the libraries keep.  Handles are references:
    [filter_by_age] changes the object behind an [index_list] in place,
    and the same reference is later given to [DeleteIndices]. *)
Class Collaborators : Type := {
  World : Type;
  es_client : Type;
  index_list : Type;
  delete_action : Type;
  (* elasticsearch.Elasticsearch(hosts) *)
  Elasticsearch : list string -> World -> result es_client * World;
  (* curator.IndexList(client) *)
  IndexList : es_client -> World -> result index_list * World;
  (* ilo.empty_list_check() *)
  empty_list_check : index_list -> World -> result () * World;
  (* ilo.filter_by_age with keyword arguments *)
  filter_by_age : index_list -> age_filter -> World -> result () * World;
  (* curator.DeleteIndices(ilo) *)
  DeleteIndices : index_list -> World -> result delete_action * World;
  (* delete_indices.do_action() *)
  do_action : delete_action -> World -> result () * World;
  (* the attribute ilo.indices *)
  indices : World -> index_list -> list string
}.

(** What the driver relies on from [empty_list_check]: it inspects
    [ilo.indices], raises [NoIndices] exactly when that list is empty,
    and changes nothing. *)
Class CuratorContract (L : Collaborators) : Prop := {
  empty_list_check_spec : forall (ilo : index_list) (w : World),
    empty_list_check ilo w =
    (match indices w ilo with
     | [] => Raised NoIndices
     | _ :: _ => Returned ()
     end, w)
}.

(** ** The driver *)

Section Driver.
Context {L : Collaborators}.

(** Library calls, as the driver issues them. *)
Inductive call : Type :=
| CallElasticsearch (hosts : list string)
| CallIndexList (c : es_client)
| CallEmptyListCheck (ilo : index_list)
| CallFilterByAge (ilo : index_list) (cfg : age_filter)
| CallDeleteIndices (ilo : index_list)
| CallDoAction (d : delete_action).

(** One line of the call history: the call, the world it was issued
    in, and the exception it raised, if any. *)
Record entry : Type := Entry {
  issued : call;
  before : World;
  raised : option exn
}.

(** State of the running process. *)
Record process : Type := Process {
  world : World;
  history : list entry;
  stdout : list string
}.

(** Ways a Python computation stops early: an exception of a library,
    or [SystemExit] raised by [sys.exit]. *)
Inductive signal : Type :=
| Exc (e : exn)
| SystemExit (code : Z).

Inductive step (A : Type) : Type :=
| Ok (a : A)
| Stop (s : signal).
Arguments Ok {A} a.
Arguments Stop {A} s.

Definition M (A : Type) : Type := process -> step A * process.

Definition ret {A} (a : A) : M A := fun p => (Ok a, p).

Definition bind {A B} (m : M A) (k : A -> M B) : M B :=
  fun p =>
    match m p with
    | (Ok a, p') => k a p'
    | (Stop s, p') => (Stop s, p')
    end.

Notation "x <- m ;; k" := (bind m (fun x => k))
  (at level 100, m at next level, right associativity).
Notation "m ;; k" := (bind m (fun _ => k))
  (at level 100, right associativity).

(** [print(line)] *)
Definition print (line : string) : M () :=
  fun p => (Ok (), Process (world p) (history p) (stdout p ++ [line])).

(** [sys.exit(code)] *)
Definition sys_exit {A} (code : Z) : M A :=
  fun p => (Stop (SystemExit code), p).

(** A call into a library: runs [op] on the current world and appends
    the call to the history. *)
Definition invoke {A} (c : call) (op : World -> result A * World) : M A :=
  fun p =>
    let (r, w') := op (world p) in
    let p' := Process w' (history p ++ [Entry c (world p) (error_of r)])
                      (stdout p) in
    match r with
    | Returned a => (Ok a, p')
    | Raised e => (Stop (Exc e), p')
    end.

(** [try: body / except curator.NoIndices: handler] *)
Definition try_except_NoIndices {A} (body handler : M A) : M A :=
  fun p =>
    match body p with
    | (Stop (Exc NoIndices), p') => handler p'
    | other => other
    end.

(** The text of line 8: ['USAGE: %s HOSTNAME[:PORT] ...' % sys.argv[0]] *)
Definition usage (argv0 : string) : string :=
  "USAGE: " +:+ argv0 +:+ " HOSTNAME[:PORT] ...".

(** The keyword arguments of line 16. *)
Definition age_filter_config : age_filter :=
  {| source := "name"; direction := "older"; timestring := "%Y-%m-%d";
     unit := "days"; unit_count := 4 |}.

Definition empty_list (ilo : index_list) (error_msg : string) : M () :=
  try_except_NoIndices
    (invoke (CallEmptyListCheck ilo) (empty_list_check ilo))
    (print error_msg ;; sys_exit 0).

Definition main (argv : list string) : M () :=
  (if (length argv =? 1)%nat
   then print (usage (hd ""%string argv)) ;; sys_exit 1
   else ret ()) ;;
  client <- invoke (CallElasticsearch (drop 1 argv))
                   (Elasticsearch (drop 1 argv)) ;;
  ilo <- invoke (CallIndexList client) (IndexList client) ;;
  empty_list ilo "ElasticSearch has no indices" ;;
  invoke (CallFilterByAge ilo age_filter_config)
         (filter_by_age ilo age_filter_config) ;;
  empty_list ilo "No indices to delete" ;;
  delete_indices <- invoke (CallDeleteIndices ilo) (DeleteIndices ilo) ;;
  invoke (CallDoAction delete_indices) (do_action delete_indices).

(** ** The process around [main] *)

Inductive termination : Type :=
| Completed
| Exited (code : Z)
| Unhandled (e : exn).

(** Exit status seen by the parent process: 0 when the script runs to
    its end, the argument of [sys.exit], and 1 for a traceback. *)
Definition exit_status (t : termination) : Z :=
  match t with
  | Completed => 0
  | Exited code => code
  | Unhandled _ => 1
  end.

Definition start (w : World) : process := Process w [] [].

(** [if __name__ == "__main__": main()] *)
Definition run (argv : list string) (w : World) : termination * process :=
  match main argv (start w) with
  | (Ok _, p) => (Completed, p)
  | (Stop (SystemExit code), p) => (Exited code, p)
  | (Stop (Exc e), p) => (Unhandled e, p)
  end.

Definition outcome (argv : list string) (w : World) : termination :=
  (run argv w).1.

Definition final (argv : list string) (w : World) : process :=
  (run argv w).2.

(** ** Reading the call history *)

Definition called (c : call) (w : World) : entry := Entry c w None.
Definition failed (c : call) (w : World) (e : exn) : entry :=
  Entry c w (Some e).

(** Endpoint lists given to the client constructor. *)
Definition connections (h : list entry) : list (list string) :=
  omap (λ e, match issued e with
             | CallElasticsearch hosts => Some hosts
             | _ => None
             end) h.

(** Configurations [filter_by_age] was called with. *)
Definition filter_configs (h : list entry) : list age_filter :=
  omap (λ e, match issued e with
             | CallFilterByAge _ cfg => Some cfg
             | _ => None
             end) h.

(** Index lists given to [DeleteIndices], each with the world it was
    given in. *)
Definition deletions (h : list entry) : list (index_list * World) :=
  omap (λ e, match issued e with
             | CallDeleteIndices ilo => Some (ilo, before e)
             | _ => None
             end) h.

(** The collections those index lists held when they were given. *)
Definition passed (h : list entry) : list (list string) :=
  (λ d, indices d.2 d.1) <$> deletions h.

(** Delete actions that were run, each with the world it ran in. *)
Definition actions (h : list entry) : list (delete_action * World) :=
  omap (λ e, match issued e with
             | CallDoAction d => Some (d, before e)
             | _ => None
             end) h.

Definition is_check (c : call) : bool :=
  match c with
  | CallEmptyListCheck _ => true
  | _ => false
  end.

Definition no_indices_msg : string := "ElasticSearch has no indices".
Definition nothing_to_delete_msg : string := "No indices to delete".

(** The two informational messages. *)
Definition informational (line : string) : bool :=
  bool_decide (line = no_indices_msg) || bool_decide (line = nothing_to_delete_msg).

(** ** The executions of the driver, one rule per way it can end *)

(** Lines 19-20: the delete action is built from [ilo] and run. *)
Inductive deleting (ilo : index_list) (w5 : World) (h : list entry)
  : termination -> process -> Prop :=
| deleting_prepare_raises e w6 :
    DeleteIndices ilo w5 = (Raised e, w6) ->
    deleting ilo w5 h (Unhandled e)
      (Process w6 (h ++ [failed (CallDeleteIndices ilo) w5 e]) [])
| deleting_action_raises d w6 e w7 :
    DeleteIndices ilo w5 = (Returned d, w6) ->
    do_action d w6 = (Raised e, w7) ->
    deleting ilo w5 h (Unhandled e)
      (Process w7
         (h ++ [called (CallDeleteIndices ilo) w5; failed (CallDoAction d) w6 e])
         [])
| deleting_done d w6 w7 :
    DeleteIndices ilo w5 = (Returned d, w6) ->
    do_action d w6 = (Returned (), w7) ->
    deleting ilo w5 h Completed
      (Process w7
         (h ++ [called (CallDeleteIndices ilo) w5; called (CallDoAction d) w6])
         []).

(** Line 17: the check after the filter. *)
Inductive second_check (ilo : index_list) (w4 : World) (h : list entry)
  : termination -> process -> Prop :=
| second_check_no_indices w5 :
    empty_list_check ilo w4 = (Raised NoIndices, w5) ->
    second_check ilo w4 h (Exited 0)
      (Process w5 (h ++ [failed (CallEmptyListCheck ilo) w4 NoIndices])
               [nothing_to_delete_msg])
| second_check_raises what w5 :
    empty_list_check ilo w4 = (Raised (OtherError what), w5) ->
    second_check ilo w4 h (Unhandled (OtherError what))
      (Process w5
         (h ++ [failed (CallEmptyListCheck ilo) w4 (OtherError what)]) [])
| second_check_passes w5 t p :
    empty_list_check ilo w4 = (Returned (), w5) ->
    deleting ilo w5 (h ++ [called (CallEmptyListCheck ilo) w4]) t p ->
    second_check ilo w4 h t p.

(** Line 16: the age filter. *)
Inductive filtering (ilo : index_list) (w3 : World) (h : list entry)
  : termination -> process -> Prop :=
| filtering_raises e w4 :
    filter_by_age ilo age_filter_config w3 = (Raised e, w4) ->
    filtering ilo w3 h (Unhandled e)
      (Process w4 (h ++ [failed (CallFilterByAge ilo age_filter_config) w3 e])
               [])
| filtering_returns w4 t p :
    filter_by_age ilo age_filter_config w3 = (Returned (), w4) ->
    second_check ilo w4
      (h ++ [called (CallFilterByAge ilo age_filter_config) w3]) t p ->
    filtering ilo w3 h t p.

(** Line 14: the check after the enumeration. *)
Inductive first_check (ilo : index_list) (w2 : World) (h : list entry)
  : termination -> process -> Prop :=
| first_check_no_indices w3 :
    empty_list_check ilo w2 = (Raised NoIndices, w3) ->
    first_check ilo w2 h (Exited 0)
      (Process w3 (h ++ [failed (CallEmptyListCheck ilo) w2 NoIndices])
               [no_indices_msg])
| first_check_raises what w3 :
    empty_list_check ilo w2 = (Raised (OtherError what), w3) ->
    first_check ilo w2 h (Unhandled (OtherError what))
      (Process w3
         (h ++ [failed (CallEmptyListCheck ilo) w2 (OtherError what)]) [])
| first_check_passes w3 t p :
    empty_list_check ilo w2 = (Returned (), w3) ->
    filtering ilo w3 (h ++ [called (CallEmptyListCheck ilo) w2]) t p ->
    first_check ilo w2 h t p.

(** Line 13: the index list is built from the client. *)
Inductive enumerate (c : es_client) (w1 : World) (h : list entry)
  : termination -> process -> Prop :=
| enumerate_raises e w2 :
    IndexList c w1 = (Raised e, w2) ->
    enumerate c w1 h (Unhandled e)
      (Process w2 (h ++ [failed (CallIndexList c) w1 e]) [])
| enumerate_returns ilo w2 t p :
    IndexList c w1 = (Returned ilo, w2) ->
    first_check ilo w2 (h ++ [called (CallIndexList c) w1]) t p ->
    enumerate c w1 h t p.

(** Lines 7-11: the usage check and the client. *)
Inductive path (argv : list string) (w0 : World)
  : termination -> process -> Prop :=
| path_usage :
    length argv = 1%nat ->
    path argv w0 (Exited 1) (Process w0 [] [usage (hd ""%string argv)])
| path_connect_raises e w1 :
    length argv ≠ 1%nat ->
    Elasticsearch (drop 1 argv) w0 = (Raised e, w1) ->
    path argv w0 (Unhandled e)
      (Process w1 [failed (CallElasticsearch (drop 1 argv)) w0 e] [])
| path_connected c w1 t p :
    length argv ≠ 1%nat ->
    Elasticsearch (drop 1 argv) w0 = (Returned c, w1) ->
    enumerate c w1 [called (CallElasticsearch (drop 1 argv)) w0] t p ->
    path argv w0 t p.

(** ** The shape of a run *)

(** The library entry points the driver uses, without their arguments. *)
Inductive entry_point : Type :=
| EpElasticsearch
| EpIndexList
| EpEmptyListCheck
| EpFilterByAge
| EpDeleteIndices
| EpDoAction.

Definition entry_point_of (c : call) : entry_point :=
  match c with
  | CallElasticsearch _ => EpElasticsearch
  | CallIndexList _ => EpIndexList
  | CallEmptyListCheck _ => EpEmptyListCheck
  | CallFilterByAge _ _ => EpFilterByAge
  | CallDeleteIndices _ => EpDeleteIndices
  | CallDoAction _ => EpDoAction
  end.

(** The calls of lines 11 to 20, in the order the lines are written. *)
Definition script_order : list entry_point :=
  [EpElasticsearch; EpIndexList; EpEmptyListCheck; EpFilterByAge;
   EpEmptyListCheck; EpDeleteIndices; EpDoAction].

(** The index list a call works on, if it works on one. *)
Definition index_list_of (c : call) : option index_list :=
  match c with
  | CallEmptyListCheck ilo
  | CallFilterByAge ilo _
  | CallDeleteIndices ilo => Some ilo
  | _ => None
  end.

(** What a call does when it is issued in world [w]: the exception it
    raises, if any, and the world it leaves. *)
Definition perform (c : call) (w : World) : option exn * World :=
  match c with
  | CallElasticsearch hosts =>
      let (r, w') := Elasticsearch hosts w in (error_of r, w')
  | CallIndexList cl =>
      let (r, w') := IndexList cl w in (error_of r, w')
  | CallEmptyListCheck ilo =>
      let (r, w') := empty_list_check ilo w in (error_of r, w')
  | CallFilterByAge ilo cfg =>
      let (r, w') := filter_by_age ilo cfg w in (error_of r, w')
  | CallDeleteIndices ilo =>
      let (r, w') := DeleteIndices ilo w in (error_of r, w')
  | CallDoAction d =>
      let (r, w') := do_action d w in (error_of r, w')
  end.

End Driver.

Arguments call : clear implicits.
Arguments entry : clear implicits.
Arguments process : clear implicits.
Arguments Ok {A} a.
Arguments Stop {A} s.

(** ** A simulated cluster *)

Module Sim.

(** *** Dates embedded in index names *)

Definition digit (a : ascii) : option Z :=
  let n := Z.of_nat (nat_of_ascii a) in
  if (48 <=? n) && (n <=? 57) then Some (n - 48) else None.

(** Reads exactly [k] decimal digits. *)
Fixpoint digits (k : nat) (s : string) (acc : Z) : option (Z * string) :=
  match k, s with
  | O, _ => Some (acc, s)
  | S k', String a s' =>
      match digit a with
      | Some d => digits k' s' (10 * acc + d)
      | None => None
      end
  | S _, EmptyString => None
  end.

Definition dash (s : string) : option string :=
  match s with
  | String "-" s' => Some s'
  | _ => None
  end.

(** A string that starts with [YYYY-MM-DD]. *)
Definition date_prefix (s : string) : option (Z * Z * Z) :=
  '(y, s1) ← digits 4 s 0;
  s2 ← dash s1;
  '(m, s3) ← digits 2 s2 0;
  s4 ← dash s3;
  '(d, _) ← digits 2 s4 0;
  Some (y, m, d).

(** The first [YYYY-MM-DD] found in a name. *)
Fixpoint embedded_date (name : string) : option (Z * Z * Z) :=
  match date_prefix name with
  | Some ymd => Some ymd
  | None =>
      match name with
      | EmptyString => None
      | String _ rest => embedded_date rest
      end
  end.

Definition leap (y : Z) : bool :=
  (y mod 4 =? 0) && (negb (y mod 100 =? 0) || (y mod 400 =? 0)).

Definition days_in_month (y m : Z) : Z :=
  if m =? 2 then (if leap y then 29 else 28)
  else if (m =? 4) || (m =? 6) || (m =? 9) || (m =? 11) then 30
  else 31.

Definition valid_date (y m d : Z) : bool :=
  (1 <=? m) && (m <=? 12) && (1 <=? d) && (d <=? days_in_month y m).

(** Days from 1970-01-01 to the given day of the Gregorian calendar. *)
Definition days_from_civil (y m d : Z) : Z :=
  let y' := if m <=? 2 then y - 1 else y in
  let era := y' / 400 in
  let yoe := y' - era * 400 in
  let mp := (m + 9) mod 12 in
  let doy := (153 * mp + 2) / 5 + d - 1 in
  let doe := yoe * 365 + yoe / 4 - yoe / 100 + doy in
  era * 146097 + doe - 719468.

Definition seconds_per_day : Z := 86400.

(** Midnight of the date a name carries, in seconds since the epoch. *)
Definition name_epoch (name : string) : option Z :=
  match embedded_date name with
  | Some (y, m, d) =>
      if valid_date y m d
      then Some (seconds_per_day * days_from_civil y m d)
      else None
  | None => None
  end.

(** Modelled from the spec: the age test of the filtering collaborator
    ([curator.IndexList.filter_by_age], a third-party package), "name
    encodes a date older than [count] days from now".  A name without a
    date is not selected. *)
Definition older_than (now count : Z) (name : string) : bool :=
  match name_epoch name with
  | Some t => t <? now - count * seconds_per_day
  | None => false
  end.

(** *** The cluster and the library objects *)

(** The five calls that reach outside the process. *)
Inductive stage : Type :=
| AtConnect | AtEnumerate | AtFilter | AtPrepare | AtDelete.

Global Instance stage_eq_dec : EqDecision stage.
Proof. solve_decision. Defined.

Record state : Type := MkState {
  cluster : list string;            (* names of the indices that exist *)
  now : Z;                          (* the clock, seconds since the epoch *)
  objects : gmap nat (list string); (* [indices] of each IndexList object *)
  next_ref : nat;                   (* next free object reference *)
  faults : list (stage * exn)       (* exceptions the environment raises *)
}.

Definition fault (s : stage) (w : state) : option exn :=
  match list_find (λ f, f.1 = s) (faults w) with
  | Some (_, (_, e)) => Some e
  | None => None
  end.

Definition sim_indices (w : state) (ilo : nat) : list string :=
  default [] (objects w !! ilo).

Definition set_indices (ilo : nat) (names : list string) (w : state) : state :=
  MkState (cluster w) (now w) (<[ilo := names]> (objects w)) (next_ref w)
          (faults w).

(** Modelled from the spec: [connect(endpoints) -> client handle] of the
    cluster client (package [elasticsearch], not in the repository).
    The handle remembers the endpoints it was built from. *)
Definition sim_Elasticsearch (hosts : list string) (w : state)
  : result (list string) * state :=
  match fault AtConnect w with
  | Some e => (Raised e, w)
  | None => (Returned hosts, w)
  end.

(** Modelled from the spec: [list_indices(client) -> index-list handle],
    "live snapshot" (package [curator], not in the repository).  A new
    object is allocated and holds the names the cluster has now. *)
Definition sim_IndexList (c : list string) (w : state) : result nat * state :=
  match fault AtEnumerate w with
  | Some e => (Raised e, w)
  | None =>
      (Returned (next_ref w),
       MkState (cluster w) (now w) (<[next_ref w := cluster w]> (objects w))
               (S (next_ref w)) (faults w))
  end.

(** Modelled from the spec: the "no indices" signal of the index-list
    handle, raised "when empty" (package [curator]). *)
Definition sim_empty_list_check (ilo : nat) (w : state) : result () * state :=
  match sim_indices w ilo with
  | [] => (Raised NoIndices, w)
  | _ :: _ => (Returned (), w)
  end.

(** Modelled from the spec: [filter(index-list handle, field=name,
    direction=older, pattern, unit=days, threshold)], "in-place",
    "deterministic given cluster clock and index names" (package
    [curator]).  Only the configuration the spec describes is
    supported; any other is rejected with an error. *)
Definition sim_filter_by_age (ilo : nat) (cfg : age_filter) (w : state)
  : result () * state :=
  match fault AtFilter w with
  | Some e => (Raised e, w)
  | None =>
      if bool_decide (source cfg = "name" ∧ direction cfg = "older" ∧
                      timestring cfg = "%Y-%m-%d" ∧ unit cfg = "days")
      then (Returned (),
            set_indices ilo
              (List.filter (older_than (now w) (unit_count cfg))
                           (sim_indices w ilo)) w)
      else (Raised (OtherError "ConfigurationError"), w)
  end.

(** Modelled from the spec: the first half of [delete(filtered
    index-list handle)], building the action object (package
    [curator]).  The action keeps the reference it was given, not a
    copy of the list. *)
Definition sim_DeleteIndices (ilo : nat) (w : state) : result nat * state :=
  match fault AtPrepare w with
  | Some e => (Raised e, w)
  | None => (Returned ilo, w)
  end.

(** Modelled from the spec: [delete(filtered index-list handle) -> void],
    "performs the bulk deletion" (package [curator]): the names the
    index list holds at that time leave the cluster. *)
Definition sim_do_action (d : nat) (w : state) : result () * state :=
  match fault AtDelete w with
  | Some e => (Raised e, w)
  | None =>
      (Returned (),
       MkState (List.filter (λ name, bool_decide (name ∉ sim_indices w d))
                            (cluster w))
               (now w) (objects w) (next_ref w) (faults w))
  end.

Global Instance library : Collaborators := {|
  World := state;
  es_client := list string;
  index_list := nat;
  delete_action := nat;
  Elasticsearch := sim_Elasticsearch;
  IndexList := sim_IndexList;
  empty_list_check := sim_empty_list_check;
  filter_by_age := sim_filter_by_age;
  DeleteIndices := sim_DeleteIndices;
  do_action := sim_do_action;
  indices := sim_indices
|}.

(** A cluster with the given indices and clock, no library objects
    yet, and an environment that raises the given exceptions. *)
Definition boot (names : list string) (clock : Z)
    (fs : list (stage * exn)) : state :=
  MkState names clock ∅ 0 fs.

(** 2023-01-10T00:00:00Z *)
Definition jan10 : Z := seconds_per_day * days_from_civil 2023 1 10.

Definition scenario_indices : list string :=
  ["logs-2023-01-01"; "logs-2023-01-05"; "logs-2023-01-10"].

Definition scenario_old : list string :=
  ["logs-2023-01-01"; "logs-2023-01-05"].

(** The world after the enumeration, and after a filter that kept
    [kept]: one IndexList object, behind reference 0. *)
Definition listed (names : list string) (clock : Z)
    (fs : list (stage * exn)) : state :=
  MkState names clock {[0%nat := names]} 1 fs.

Definition filtered (names kept : list string) (clock : Z)
    (fs : list (stage * exn)) : state :=
  MkState names clock {[0%nat := kept]} 1 fs.

(** Inputs on which the driver is run below. *)
Definition script : list string := ["esCleaner.py"; "es1:9200"].

Definition young_indices : list string :=
  ["logs-2023-01-08"; "logs-2023-01-10"].

Definition delete_refused : list (stage * exn) :=
  [(AtDelete, OtherError "TransportError")].

Definition delete_finds_nothing : list (stage * exn) :=
  [(AtDelete, NoIndices)].

End Sim.


(** ** Facts about the driver *)

Section DriverFacts.
Context {L : Collaborators}.

(** Runs one more library call of a goal about [run]. *)
Ltac next_call :=
  match goal with
  | |- context [Elasticsearch ?hs ?w] =>
      destruct (Elasticsearch hs w) as [[?c|?e] ?w] eqn:?
  | |- context [IndexList ?c ?w] =>
      destruct (IndexList c w) as [[?ilo|?e] ?w] eqn:?
  | |- context [empty_list_check ?i ?w] =>
      destruct (empty_list_check i w) as [[[]|[|?what]] ?w] eqn:?
  | |- context [filter_by_age ?i ?c ?w] =>
      destruct (filter_by_age i c w) as [[[]|?e] ?w] eqn:?
  | |- context [DeleteIndices ?i ?w] =>
      destruct (DeleteIndices i w) as [[?d|?e] ?w] eqn:?
  | |- context [do_action ?d ?w] =>
      destruct (do_action d w) as [[[]|?e] ?w] eqn:?
  end; cbn -[app].

Lemma run_path (argv : list string) (w0 : World) :
  path argv w0 (outcome argv w0) (final argv w0).
Proof.
  unfold outcome, final, run, main, empty_list, try_except_NoIndices,
    bind, invoke, print, sys_exit, ret, start.
  destruct (Nat.eqb_spec (length argv) 1) as [Hlen|Hlen]; cbn.
  { by apply path_usage. }
  next_call; [|by eapply path_connect_raises].
  eapply path_connected; [done..|].
  next_call; [|by apply (enumerate_raises _ _ [_])].
  eapply (enumerate_returns _ _ [_]); [eassumption|].
  next_call.
  - eapply (first_check_passes _ _ [_; _]); [eassumption|].
    next_call; [|by apply (filtering_raises _ _ [_; _; _])].
    eapply (filtering_returns _ _ [_; _; _]); [eassumption|].
    next_call.
    + eapply (second_check_passes _ _ [_; _; _; _]); [eassumption|].
      next_call; [|by apply (deleting_prepare_raises _ _ [_; _; _; _; _])].
      next_call.
      * by eapply (deleting_done _ _ [_; _; _; _; _]).
      * by eapply (deleting_action_raises _ _ [_; _; _; _; _]).
    + by apply (second_check_no_indices _ _ [_; _; _; _]).
    + by apply (second_check_raises _ _ [_; _; _; _]).
  - by apply (first_check_no_indices _ _ [_; _]).
  - by apply (first_check_raises _ _ [_; _]).
Qed.

(** Takes a derivation of [path] apart, down to the rule that ended
    the run. *)
Ltac invert_path :=
  repeat match goal with
         | H : path _ _ _ _ |- _ => inversion H; subst; clear H
         | H : enumerate _ _ _ _ _ |- _ => inversion H; subst; clear H
         | H : first_check _ _ _ _ _ |- _ => inversion H; subst; clear H
         | H : filtering _ _ _ _ _ |- _ => inversion H; subst; clear H
         | H : second_check _ _ _ _ _ |- _ => inversion H; subst; clear H
         | H : deleting _ _ _ _ _ |- _ => inversion H; subst; clear H
         end.

Lemma usage_not_informational (argv0 : string) :
  informational (usage argv0) = false.
Proof.
  unfold informational. apply orb_false_intro; by apply bool_decide_eq_false.
Qed.

(** A call that raised anything but [NoIndices] ended the run, unhandled
    and with nothing printed. *)
Lemma other_error_on_path argv w0 t p e what :
  path argv w0 t p →
  e ∈ history p → raised e = Some (OtherError what) →
  t = Unhandled (OtherError what) ∧ stdout p = [].
Proof.
  intros Hpath Hin Hraised. invert_path; cbn in *; set_unfold in Hin.
  all: try done; destruct_or?; subst e; cbn in *; by simplify_eq.
Qed.

(** [NoIndices] ends the run with status 0 when an empty-list check
    raised it, and unhandled when any other call did. *)
Lemma no_indices_on_path argv w0 t p e :
  path argv w0 t p →
  e ∈ history p → raised e = Some NoIndices →
  if is_check (issued e)
  then t = Exited 0 ∧ ∃ msg, stdout p = [msg] ∧ informational msg = true
  else t = Unhandled NoIndices ∧ stdout p = [].
Proof.
  intros Hpath Hin Hraised. invert_path; cbn in *; set_unfold in Hin.
  all: try done; destruct_or?; subst e; cbn in *; simplify_eq; eauto.
Qed.

(** Every run prints nothing, the usage line, or one informational
    message followed by exit status 0. *)
Lemma stdout_on_path argv w0 t p :
  path argv w0 t p →
  stdout p = [] ∨
  (stdout p = [usage (hd ""%string argv)] ∧ t = Exited 1) ∨
  (∃ msg, stdout p = [msg] ∧ informational msg = true ∧ t = Exited 0).
Proof.
  intros Hpath. invert_path; cbn; eauto 6.
Qed.

(** The filter is called at most once, with the fixed configuration,
    and only after the first check. *)
Lemma filter_on_path argv w0 t p :
  path argv w0 t p →
  filter_configs (history p) = [] ∨
  filter_configs (history p) = [age_filter_config].
Proof.
  intros Hpath. invert_path; cbn; eauto.
Qed.

(** Unfolds the driver down to the library calls. *)
Ltac unfold_run :=
  unfold outcome, final, run, main, empty_list, try_except_NoIndices,
    bind, invoke, print, sys_exit, ret, start, age_filter_config in *; cbn.

(** Runs the driver along the calls whose results are among the
    hypotheses. *)
Ltac follow :=
  repeat match goal with
         | H : _ = (_, _) |- _ => rewrite H; cbn
         end.

(** The rules describe [run] and nothing else: a derivation fixes the
    result of the run. *)
Lemma path_run (argv : list string) (w0 : World) (t : termination)
    (p : process L) :
  path argv w0 t p → run argv w0 = (t, p).
Proof.
  intros Hpath. invert_path; unfold_run.
  all: match goal with
       | H : length _ = 1%nat |- _ =>
           apply Nat.eqb_eq in H; rewrite H
       | H : length _ ≠ 1%nat |- _ =>
           apply Nat.eqb_neq in H; rewrite H
       end; cbn; by follow.
Qed.

(** C4: with no endpoint argument the program prints one line on
    standard output, the text USAGE: followed by the program name and
    HOSTNAME[:PORT] ..., exits with status 1, and makes no library call
    at all, so no connection to a cluster is attempted. *)
Theorem C4_usage_error (prog : string) (w0 : World) :
  stdout (final [prog] w0) =
    ["USAGE: " +:+ prog +:+ " HOSTNAME[:PORT] ..."] ∧
  stdout (final ["esCleaner.py"] w0) =
    ["USAGE: esCleaner.py HOSTNAME[:PORT] ..."] ∧
  outcome [prog] w0 = Exited 1 ∧
  exit_status (outcome [prog] w0) = 1 ∧
  history (final [prog] w0) = [] ∧
  connections (history (final [prog] w0)) = [].
Proof. by unfold_run. Qed.

(** C8: with at least one argument, the client constructor is the
    first library call, it is called once, and it receives the
    arguments after the program name as they are and in their order. *)
Theorem C8_endpoints_verbatim (prog host : string) (hosts : list string)
    (w0 : World) :
  let argv := prog :: host :: hosts in
  connections (history (final argv w0)) = [host :: hosts] ∧
  (issued <$> head (history (final argv w0))) =
    Some (CallElasticsearch (host :: hosts)) ∧
  (before <$> head (history (final argv w0))) = Some w0.
Proof.
  unfold_run. repeat (next_call; try done).
Qed.

(** C5: when any library call of a run (the client constructor, the
    enumeration, a check, the filter, the construction of the delete
    action or the action itself) raises an error other than
    [NoIndices], the error reaches the top of the process: the run ends
    unhandled with that error, neither informational message has been
    printed, and the exit status is not 0. *)
Theorem C5_other_errors_propagate (argv : list string) (w0 : World)
    (e : entry L) (what : string) :
  e ∈ history (final argv w0) →
  raised e = Some (OtherError what) →
  outcome argv w0 = Unhandled (OtherError what) ∧
  ("ElasticSearch has no indices" ∉ stdout (final argv w0)) ∧
  ("No indices to delete" ∉ stdout (final argv w0)) ∧
  exit_status (outcome argv w0) ≠ 0.
Proof.
  intros Hin Hraised.
  destruct (other_error_on_path _ _ _ _ _ _ (run_path argv w0) Hin Hraised)
    as [-> ->].
  repeat split; [apply not_elem_of_nil..|done].
Qed.

(** C6: whatever the arguments and the cluster, [filter_by_age] is
    called at most once and only with source "name", direction "older",
    timestring "%Y-%m-%d", unit "days" and unit count 4; and whenever
    an endpoint is given, the client and the index list are built and
    the first check returns, the filter is called: it is the fourth
    call of the run, on the index list that was built, in the world
    the first check left, with exactly that configuration. *)
Theorem C6_fixed_filter_configuration (argv : list string) (w0 : World) :
  Forall (λ cfg, source cfg = "name" ∧ direction cfg = "older" ∧
                 timestring cfg = "%Y-%m-%d" ∧ unit cfg = "days" ∧
                 unit_count cfg = 4)
         (filter_configs (history (final argv w0))) ∧
  (length (filter_configs (history (final argv w0))) ≤ 1)%nat ∧
  (∀ prog host hosts c w1 ilo w2 w3,
     argv = prog :: host :: hosts →
     Elasticsearch (host :: hosts) w0 = (Returned c, w1) →
     IndexList c w1 = (Returned ilo, w2) →
     empty_list_check ilo w2 = (Returned (), w3) →
     filter_configs (history (final argv w0)) =
       [AgeFilter "name" "older" "%Y-%m-%d" "days" 4] ∧
     (issued <$> history (final argv w0) !! 3%nat) =
       Some (CallFilterByAge ilo
               (AgeFilter "name" "older" "%Y-%m-%d" "days" 4)) ∧
     (before <$> history (final argv w0) !! 3%nat) = Some w3).
Proof.
  split; [|split].
  - destruct (filter_on_path _ _ _ _ (run_path argv w0)) as [-> | ->];
      [constructor | by repeat constructor].
  - destruct (filter_on_path _ _ _ _ (run_path argv w0)) as [-> | ->];
      cbn; lia.
  - intros prog host hosts c w1 ilo w2 w3 -> Hc Hl Hk.
    unfold_run. rewrite Hc. cbn -[app]. rewrite Hl. cbn -[app].
    rewrite Hk. cbn -[app].
    repeat (next_call; try done).
Qed.

(** C10: [NoIndices] becomes a successful exit only at the two
    empty-list checks.  Raised by any other call of the run, the delete
    action included, it is not caught: the run ends unhandled, with a
    status other than 0 and nothing printed. *)
Theorem C10_no_indices_caught_only_at_checks (argv : list string)
    (w0 : World) (e : entry L) :
  e ∈ history (final argv w0) →
  raised e = Some NoIndices →
  (is_check (issued e) = true →
     outcome argv w0 = Exited 0 ∧
     exit_status (outcome argv w0) = 0) ∧
  (is_check (issued e) = false →
     outcome argv w0 = Unhandled NoIndices ∧
     exit_status (outcome argv w0) ≠ 0 ∧
     stdout (final argv w0) = []) ∧
  (∀ d, issued e = CallDoAction d →
     outcome argv w0 = Unhandled NoIndices ∧
     exit_status (outcome argv w0) ≠ 0).
Proof.
  intros Hin Hraised.
  pose proof (no_indices_on_path _ _ _ _ _ (run_path argv w0) Hin Hraised)
    as Hend.
  split; [|split].
  - intros Hcheck. rewrite Hcheck in Hend. by destruct Hend as [-> _].
  - intros Hcheck. rewrite Hcheck in Hend. by destruct Hend as [-> ->].
  - intros d Hcall. rewrite Hcall in Hend. by destruct Hend as [-> _].
Qed.

(** *** Further properties of the driver *)

(** Turns a goal about the run on [argv] and [w0] into a goal about
    any outcome [t] and final state [p] that the rules allow. *)
Ltac on_any_path argv w0 t p Hpath :=
  pose proof (run_path argv w0) as Hpath; revert Hpath;
  generalize (outcome argv w0) (final argv w0); intros t p Hpath.

(** X1: the program leaves through [sys.exit(1)] exactly when [sys.argv]
    has one element, and that is the only case without a library call;
    for every other length the client constructor is called, once,
    with [sys.argv[1:]], and no usage line is printed. *)
Theorem X1_usage_exit_iff_one_argument (argv : list string) (w0 : World) :
  (outcome argv w0 = Exited 1 ↔ length argv = 1%nat) ∧
  (history (final argv w0) = [] ↔ length argv = 1%nat) ∧
  (length argv ≠ 1%nat →
     connections (history (final argv w0)) = [drop 1 argv] ∧
     usage (hd ""%string argv) ∉ stdout (final argv w0)).
Proof.
  pose proof (run_path argv w0) as Hpath.
  pose proof (usage_not_informational (hd ""%string argv)) as Husage.
  apply orb_false_elim in Husage
    as [Hfirst%bool_decide_eq_false Hsecond%bool_decide_eq_false].
  invert_path; cbn -[usage]; (split; [|split]).
  all: try (split; [intros ?; by simplify_eq | done]).
  all: try (intros ?; done).
  all: intros _; split; [done|]; set_unfold; tauto.
Qed.

(** X2: the library calls of a run are an initial part of the sequence
    in which lines 11 to 20 are written: client, index list, check,
    filter, check, delete action, its execution.  No call is repeated,
    skipped or reordered. *)
Theorem X2_calls_follow_script_order (argv : list string) (w0 : World) :
  (entry_point_of ∘ issued) <$> history (final argv w0)
    `prefix_of` script_order.
Proof.
  pose proof (run_path argv w0) as Hpath.
  invert_path; cbn; unfold script_order; by eexists.
Qed.

(** X3: a call that is not the last of the run raised nothing: the
    first exception of a library ends the calls. *)
Theorem X3_only_last_call_raises (argv : list string) (w0 : World)
    (i : nat) (e : entry L) :
  history (final argv w0) !! i = Some e →
  (S i < length (history (final argv w0)))%nat →
  raised e = None.
Proof.
  on_any_path argv w0 t p Hpath. intros Hlookup Hlt.
  invert_path; cbn in Hlookup, Hlt.
  all: do 7 (try (destruct i as [|i]; cbn in Hlookup, Hlt;
                  [by (lia || (injection Hlookup as <-)) |])).
  all: try done; lia.
Qed.

(** X4: every check, the filter and the delete action work on the
    index list that the one [IndexList] call of the run returned, and
    that call received the client the constructor returned. *)
Theorem X4_one_index_list (argv : list string) (w0 : World)
    (e : entry L) (ilo : index_list) :
  e ∈ history (final argv w0) →
  index_list_of (issued e) = Some ilo →
  ∃ c w1 w2,
    Elasticsearch (drop 1 argv) w0 = (Returned c, w1) ∧
    history (final argv w0) !! 1%nat = Some (called (CallIndexList c) w1) ∧
    IndexList c w1 = (Returned ilo, w2).
Proof.
  on_any_path argv w0 t p Hpath. intros Hin Hilo.
  invert_path; cbn in Hin; set_unfold in Hin;
    try done; destruct_or?; subst e; cbn in Hilo; simplify_eq.
  all: by eexists _, _, _.
Qed.

(** X5: the action that is run is the one [DeleteIndices] returned, in
    the world that call left, and it is run at most once. *)
Theorem X5_action_is_the_one_built (argv : list string) (w0 : World)
    (d : delete_action) (w : World) :
  (d, w) ∈ actions (history (final argv w0)) →
  actions (history (final argv w0)) = [(d, w)] ∧
  ∃ ilo w5,
    deletions (history (final argv w0)) = [(ilo, w5)] ∧
    DeleteIndices ilo w5 = (Returned d, w).
Proof.
  on_any_path argv w0 t p Hpath. intros Hin.
  invert_path; cbn in Hin |- *; set_unfold in Hin;
    try done; destruct_or?; simplify_eq.
  all: split; [done|]; by eexists _, _.
Qed.

(** X6: the run reaches the end of [main] exactly when [do_action] was
    the last call and raised nothing; and the exit status is 0 exactly
    when that is so or one of the two informational messages is the
    whole of standard output. *)
Theorem X6_status_zero_means_done_or_nothing_to_do (argv : list string)
    (w0 : World) :
  (outcome argv w0 = Completed ↔
   ∃ d w, last (history (final argv w0)) = Some (called (CallDoAction d) w)) ∧
  (exit_status (outcome argv w0) = 0 ↔
   outcome argv w0 = Completed ∨
   stdout (final argv w0) = ["ElasticSearch has no indices"] ∨
   stdout (final argv w0) = ["No indices to delete"]).
Proof.
  change "ElasticSearch has no indices" with no_indices_msg;
  change "No indices to delete" with nothing_to_delete_msg;
  on_any_path argv w0 t p Hpath.
  pose proof (usage_not_informational (hd ""%string argv)) as Husage.
  apply orb_false_elim in Husage
    as [Hfirst%bool_decide_eq_false Hsecond%bool_decide_eq_false].
  invert_path; cbn -[usage]; split.
  all: try (split; [done | by intros (? & ? & ?)]).
  all: try (split; [done | intros [|[|]]; by simplify_eq]).
  all: try (split; [intros _; by eauto | done]).
Qed.

(** X8: [empty_list], for any index list, message and prior state of
    the process: it makes exactly one library call, the check; it
    never lets [NoIndices] out; it stops the process exactly when the
    check raised [NoIndices], then with code 0 and its message as the
    line just printed; in every other case standard output is as it
    was, and any other exception of the check goes on to the caller. *)
Theorem X8_empty_list_behaviour (ilo : index_list) (error_msg : string)
    (p : process L) :
  let r := empty_list ilo error_msg p in
  let checked := perform (CallEmptyListCheck ilo) (world p) in
  history r.2 =
    history p ++ [Entry (CallEmptyListCheck ilo) (world p) checked.1] ∧
  world r.2 = checked.2 ∧
  r.1 ≠ Stop (Exc NoIndices) ∧
  (checked.1 = Some NoIndices ↔ ∃ code, r.1 = Stop (SystemExit code)) ∧
  (checked.1 = Some NoIndices →
     r.1 = Stop (SystemExit 0) ∧ stdout r.2 = stdout p ++ [error_msg]) ∧
  (checked.1 ≠ Some NoIndices → stdout r.2 = stdout p) ∧
  (checked.1 = None ↔ r.1 = Ok ()) ∧
  (∀ what, checked.1 = Some (OtherError what) ↔
           r.1 = Stop (Exc (OtherError what))).
Proof.
  unfold empty_list, try_except_NoIndices, invoke, bind, print, sys_exit.
  cbn. destruct (empty_list_check ilo (world p)) as [[[]|[|what]] w] eqn:Hc;
    cbn; repeat split; try done.
  all: try (intros ?; by simplify_eq).
  all: try (by intros (? & ?)).
  all: try by eexists.
Qed.

(** X11: the driver raises nothing of its own.  A run ends with an
    unhandled exception exactly when its last library call raised that
    exception and, if the exception is [NoIndices], that call was not
    one of the two checks. *)
Theorem X11_unhandled_comes_from_last_call (argv : list string)
    (w0 : World) (ex : exn) :
  outcome argv w0 = Unhandled ex ↔
  ∃ e, last (history (final argv w0)) = Some e ∧ raised e = Some ex ∧
       (ex = NoIndices → is_check (issued e) = false).
Proof.
  on_any_path argv w0 t p Hpath. invert_path; cbn; split.
  all: try (intros [= <-]; by eexists).
  all: try (intros (? & [= <-] & [= <-] & ?); done).
  all: try done.
  all: try (intros (? & ? & ? & ?); by simplify_eq).
  all: intros (? & [= <-] & [= <-] & Hcheck); cbn in Hcheck;
    by specialize (Hcheck eq_refl).
Qed.

Section WithContract.
Context `{!CuratorContract L}.

(** The check of a list that holds something passes. *)
Lemma check_nonempty (ilo : index_list) (w : World) :
  indices w ilo ≠ [] → empty_list_check ilo w = (Returned (), w).
Proof.
  intros Hne. rewrite empty_list_check_spec.
  by destruct (indices w ilo).
Qed.

Lemma check_empty (ilo : index_list) (w : World) :
  indices w ilo = [] → empty_list_check ilo w = (Raised NoIndices, w).
Proof. intros Hnil. by rewrite empty_list_check_spec, Hnil. Qed.

Lemma check_returned (ilo : index_list) (w w' : World) :
  empty_list_check ilo w = (Returned (), w') → indices w ilo ≠ [] ∧ w' = w.
Proof.
  rewrite empty_list_check_spec.
  destruct (indices w ilo); [done|]. intros [= <-]. done.
Qed.

Lemma check_raised (ilo : index_list) (w w' : World) (e : exn) :
  empty_list_check ilo w = (Raised e, w') →
  indices w ilo = [] ∧ e = NoIndices ∧ w' = w.
Proof.
  rewrite empty_list_check_spec.
  destruct (indices w ilo); [|done]. by intros [= <- <-].
Qed.

(** C2: when the enumeration gives an empty collection, the program
    prints "ElasticSearch has no indices", exits with status 0, and
    calls neither the filter nor any part of the delete step. *)
Theorem C2_empty_enumeration (prog host : string) (hosts : list string)
    (w0 w1 w2 : World) (c : es_client) (ilo : index_list) :
  let argv := prog :: host :: hosts in
  Elasticsearch (host :: hosts) w0 = (Returned c, w1) →
  IndexList c w1 = (Returned ilo, w2) →
  indices w2 ilo = [] →
  stdout (final argv w0) = ["ElasticSearch has no indices"] ∧
  outcome argv w0 = Exited 0 ∧
  exit_status (outcome argv w0) = 0 ∧
  filter_configs (history (final argv w0)) = [] ∧
  deletions (history (final argv w0)) = [] ∧
  actions (history (final argv w0)) = [].
Proof.
  intros argv Hconnect Hlist Hnil.
  apply check_empty in Hnil.
  subst argv. unfold_run. by follow.
Qed.

(** C3: when the enumeration is not empty and the age filter leaves
    nothing, the program prints "No indices to delete", exits with
    status 0, and calls no part of the delete step. *)
Theorem C3_empty_filter_result (prog host : string) (hosts : list string)
    (w0 w1 w2 w3 : World) (c : es_client) (ilo : index_list) :
  let argv := prog :: host :: hosts in
  Elasticsearch (host :: hosts) w0 = (Returned c, w1) →
  IndexList c w1 = (Returned ilo, w2) →
  indices w2 ilo ≠ [] →
  filter_by_age ilo (AgeFilter "name" "older" "%Y-%m-%d" "days" 4) w2 =
    (Returned (), w3) →
  indices w3 ilo = [] →
  stdout (final argv w0) = ["No indices to delete"] ∧
  outcome argv w0 = Exited 0 ∧
  exit_status (outcome argv w0) = 0 ∧
  filter_configs (history (final argv w0)) =
    [AgeFilter "name" "older" "%Y-%m-%d" "days" 4] ∧
  deletions (history (final argv w0)) = [] ∧
  actions (history (final argv w0)) = [].
Proof.
  intros argv Hconnect Hlist Hsome Hfilter Hnil.
  apply check_nonempty in Hsome. apply check_empty in Hnil.
  subst argv. unfold_run. by follow.
Qed.

(** C1: when the enumeration is not empty and the age filter leaves a
    collection that is not empty, the delete step is entered exactly
    once: [DeleteIndices] receives the filtered index list, in the
    world the filter left, so the collection it is given is the
    filtered one; the action it returns is run exactly once; and when
    the action returns without error the program ends with status 0. *)
Theorem C1_delete_filtered_once (prog host : string) (hosts : list string)
    (w0 w1 w2 w3 : World) (c : es_client) (ilo : index_list) :
  let argv := prog :: host :: hosts in
  Elasticsearch (host :: hosts) w0 = (Returned c, w1) →
  IndexList c w1 = (Returned ilo, w2) →
  indices w2 ilo ≠ [] →
  filter_by_age ilo age_filter_config w2 = (Returned (), w3) →
  indices w3 ilo ≠ [] →
  deletions (history (final argv w0)) = [(ilo, w3)] ∧
  passed (history (final argv w0)) = [indices w3 ilo] ∧
  ∀ d w4,
    DeleteIndices ilo w3 = (Returned d, w4) →
    actions (history (final argv w0)) = [(d, w4)] ∧
    ∀ w5,
      do_action d w4 = (Returned (), w5) →
      outcome argv w0 = Completed ∧
      exit_status (outcome argv w0) = 0 ∧
      world (final argv w0) = w5 ∧
      stdout (final argv w0) = [].
Proof.
  intros argv Hconnect Hlist Hsome Hfilter Hkept.
  apply check_nonempty in Hsome. apply check_nonempty in Hkept.
  subst argv. unfold passed. unfold_run. follow.
  destruct (DeleteIndices ilo w3) as [[d|e] w4] eqn:Hprep; cbn;
    [destruct (do_action d w4) as [[[]|e] w5] eqn:Hact; cbn|];
    (split; [done|split; [done|]]); try done.
  all: intros d' w4' [= <- <-]; (split; [done|]); intros w5'; rewrite Hact.
  - by intros [= <-].
  - done.
Qed.

(** When "No indices to delete" is printed, the index list held
    something right after the enumeration. *)
Lemma nothing_to_delete_on_path argv w0 t p :
  path argv w0 t p →
  nothing_to_delete_msg ∈ stdout p →
  ∃ c w1 ilo w2,
    called (CallIndexList c) w1 ∈ history p ∧
    IndexList c w1 = (Returned ilo, w2) ∧
    indices w2 ilo ≠ [].
Proof.
  intros Hpath Hin. invert_path; cbn in Hin; set_unfold in Hin.
  all: try done; destruct_or?; try done.
  eexists _, _, _, _. split; [|split; [eassumption|]].
  - cbn. set_solver.
  - eapply check_returned. eassumption.
Qed.

(** C9: a run prints at most one of the two informational messages; a
    run that prints one prints nothing else and ends at once with exit
    status 0; and when "No indices to delete" is printed, the
    enumeration gave a collection that was not empty. *)
Theorem C9_at_most_one_message (argv : list string) (w0 : World) :
  (length (List.filter informational (stdout (final argv w0))) ≤ 1)%nat ∧
  (∀ line, line ∈ stdout (final argv w0) → informational line = true →
     stdout (final argv w0) = [line] ∧
     outcome argv w0 = Exited 0 ∧
     exit_status (outcome argv w0) = 0) ∧
  ("No indices to delete" ∈ stdout (final argv w0) →
     ("ElasticSearch has no indices" ∉ stdout (final argv w0)) ∧
     ∃ c w1 ilo w2,
       called (CallIndexList c) w1 ∈ history (final argv w0) ∧
       IndexList c w1 = (Returned ilo, w2) ∧
       indices w2 ilo ≠ []).
Proof.
  pose proof (run_path argv w0) as Hpath.
  split; [|split].
  - destruct (stdout_on_path _ _ _ _ Hpath)
      as [-> | [[-> _] | (msg & -> & Hmsg & _)]]; cbn.
    + lia.
    + rewrite usage_not_informational. cbn. lia.
    + rewrite Hmsg. cbn. lia.
  - intros line Hin Hinfo.
    destruct (stdout_on_path _ _ _ _ Hpath)
      as [Hout | [[Hout _] | (msg & Hout & _ & Hexit)]];
      rewrite Hout in Hin |- *; set_unfold in Hin;
      destruct_or?; try done; subst line.
    + by rewrite usage_not_informational in Hinfo.
    + by rewrite Hexit.
  - intros Hin. split; [|by apply (nothing_to_delete_on_path _ _ _ _ Hpath)].
    destruct (stdout_on_path _ _ _ _ Hpath)
      as [Hout | [[Hout _] | (msg & Hout & _ & _)]];
      rewrite Hout in Hin |- *; set_unfold in Hin; set_unfold;
      destruct_or?; try done.
    subst msg. by intros [|].
Qed.

(** X9: [DeleteIndices] is only ever given an index list that is not
    empty, in the very world a [filter_by_age] call with the fixed
    configuration left after returning; and that filter had been
    applied to a list that was not empty either. *)
Theorem X9_delete_only_after_filter (argv : list string) (w0 : World)
    (ilo : index_list) (w : World) :
  (ilo, w) ∈ deletions (history (final argv w0)) →
  indices w ilo ≠ [] ∧
  ∃ w3,
    called (CallFilterByAge ilo (AgeFilter "name" "older" "%Y-%m-%d" "days" 4))
           w3 ∈ history (final argv w0) ∧
    filter_by_age ilo (AgeFilter "name" "older" "%Y-%m-%d" "days" 4) w3 =
      (Returned (), w) ∧
    indices w3 ilo ≠ [].
Proof.
  change (AgeFilter _ _ _ _ _) with age_filter_config;
  on_any_path argv w0 t p Hpath. intros Hin.
  invert_path; cbn in Hin; set_unfold in Hin;
    try done; destruct_or?; simplify_eq.
  all: repeat match goal with
              | H : empty_list_check _ _ = (Returned (), _) |- _ =>
                  apply check_returned in H as [? ->]
              end.
  all: split; [done|]; eexists; split; [|by split].
  all: cbn; set_solver.
Qed.

(** X10: the informational messages say what happened.  When
    "ElasticSearch has no indices" is printed, the index list the
    enumeration returned was empty and neither the filter nor the
    delete action was called; when "No indices to delete" is printed,
    the filter returned, on a list that was not empty, and left it
    empty, and the delete action was not called.  In both cases the
    check that found the list empty is the last call of the run. *)
Theorem X10_messages_are_truthful (argv : list string) (w0 : World) :
  ("ElasticSearch has no indices" ∈ stdout (final argv w0) →
     filter_configs (history (final argv w0)) = [] ∧
     deletions (history (final argv w0)) = [] ∧
     ∃ c w1 ilo w2,
       IndexList c w1 = (Returned ilo, w2) ∧ indices w2 ilo = [] ∧
       last (history (final argv w0)) =
         Some (failed (CallEmptyListCheck ilo) w2 NoIndices)) ∧
  ("No indices to delete" ∈ stdout (final argv w0) →
     deletions (history (final argv w0)) = [] ∧
     ∃ ilo w3 w4,
       filter_by_age ilo (AgeFilter "name" "older" "%Y-%m-%d" "days" 4) w3 =
         (Returned (), w4) ∧
       indices w3 ilo ≠ [] ∧ indices w4 ilo = [] ∧
       last (history (final argv w0)) =
         Some (failed (CallEmptyListCheck ilo) w4 NoIndices)).
Proof.
  change "ElasticSearch has no indices" with no_indices_msg;
  change "No indices to delete" with nothing_to_delete_msg;
  change (AgeFilter _ _ _ _ _) with age_filter_config;
  on_any_path argv w0 t p Hpath.
  pose proof (usage_not_informational (hd ""%string argv)) as Husage.
  apply orb_false_elim in Husage
    as [Hfirst%bool_decide_eq_false Hsecond%bool_decide_eq_false].
  invert_path; cbn -[usage]; split; intros Hin; set_unfold in Hin;
    try done; destruct_or?; try done.
  all: repeat match goal with
              | H : empty_list_check _ _ = (Returned (), _) |- _ =>
                  apply check_returned in H as [? ->]
              | H : empty_list_check _ _ = (Raised _, _) |- _ =>
                  apply check_raised in H as (? & _ & ->)
              end.
  - do 2 (split; [done|]). by eexists _, _, _, _.
  - split; [done|]. by eexists _, _, _.
Qed.

End WithContract.

End DriverFacts.

(** ** Facts about the simulated cluster *)

Module SimFacts.
Import Sim.

Example epoch_day : days_from_civil 1970 1 1 = 0.
Proof. reflexivity. Qed.

Example leap_day : days_from_civil 2000 3 1 - days_from_civil 2000 2 28 = 2.
Proof. reflexivity. Qed.

Example date_in_name :
  embedded_date "logs-2023-01-05" = Some (2023, 1, 5) ∧
  embedded_date "v2-2023-01-05-000001" = Some (2023, 1, 5) ∧
  embedded_date "logs" = None ∧
  name_epoch "logs-2023-02-30" = None.
Proof. by vm_compute. Qed.

(** The simulated check meets the contract the driver relies on. *)
Global Instance contract : CuratorContract library.
Proof.
  constructor. intros ilo w. cbn. unfold sim_empty_list_check.
  by destruct (sim_indices w ilo).
Qed.

(** The filter with the driver's configuration, when no fault is
    planted: the object keeps the names older than four days. *)
Lemma filter_by_age_config (ilo : nat) (w : state) :
  fault AtFilter w = None →
  sim_filter_by_age ilo age_filter_config w =
  (Returned (),
   set_indices ilo (List.filter (older_than (now w) 4) (sim_indices w ilo)) w).
Proof. intros Hfault. unfold sim_filter_by_age. by rewrite Hfault. Qed.

(** At any time of 2023-01-10, the first two names of the scenario
    are older than four days and the third is not.  The day starts
    1673308800 seconds after the epoch. *)
Lemma scenario_filter (s : Z) :
  0 ≤ s < 86400 →
  List.filter (older_than (1673308800 + s) 4) scenario_indices =
    scenario_old.
Proof.
  intros Hs. unfold scenario_indices, scenario_old.
  cbn [List.filter].
  assert (older_than (1673308800 + s) 4 "logs-2023-01-01" = true) as ->.
  { unfold older_than. change (name_epoch _) with (Some 1672531200).
    apply Z.ltb_lt. unfold seconds_per_day. lia. }
  assert (older_than (1673308800 + s) 4 "logs-2023-01-05" = true) as ->.
  { unfold older_than. change (name_epoch _) with (Some 1672876800).
    apply Z.ltb_lt. unfold seconds_per_day. lia. }
  assert (older_than (1673308800 + s) 4 "logs-2023-01-10" = false) as ->.
  { unfold older_than. change (name_epoch _) with (Some 1673308800).
    apply Z.ltb_ge. unfold seconds_per_day. lia. }
  done.
Qed.

(** A run on a cluster without faults whose filter keeps [kept]. *)
Lemma run_deletes (prog host : string) (hosts names kept : list string)
    (clock : Z) :
  names ≠ [] → kept ≠ [] →
  List.filter (older_than clock 4) names = kept →
  run (prog :: host :: hosts) (boot names clock []) =
  (Completed,
   Process
     (MkState (List.filter (λ name, bool_decide (name ∉ kept)) names)
              clock {[0%nat := kept]} 1 [])
     [called (CallElasticsearch (host :: hosts)) (boot names clock []);
      called (CallIndexList (L := library) (host :: hosts))
             (boot names clock []);
      called (CallEmptyListCheck (L := library) 0%nat) (listed names clock []);
      called (CallFilterByAge (L := library) 0%nat age_filter_config)
             (listed names clock []);
      called (CallEmptyListCheck (L := library) 0%nat)
             (filtered names kept clock []);
      called (CallDeleteIndices (L := library) 0%nat)
             (filtered names kept clock []);
      called (CallDoAction (L := library) 0%nat)
             (filtered names kept clock [])]
     []).
Proof.
  intros Hnames Hkept Hfilter. apply path_run.
  eapply path_connected; [done | reflexivity |].
  eapply (enumerate_returns _ _ [_]); [reflexivity |].
  eapply (first_check_passes _ _ [_; _]).
  { apply check_nonempty. by destruct names. }
  eapply (filtering_returns _ _ [_; _; _]).
  { etrans; [by apply filter_by_age_config|].
    unfold set_indices, sim_indices. cbn.
    rewrite lookup_insert_eq. cbn. rewrite Hfilter.
    by rewrite insert_insert_eq. }
  eapply (second_check_passes _ _ [_; _; _; _]).
  { apply check_nonempty. cbn. unfold sim_indices. cbn.
    by rewrite lookup_insert_eq. }
  eapply (deleting_done _ _ [_; _; _; _; _]); [reflexivity |].
  cbn. unfold sim_do_action, sim_indices. cbn.
  by rewrite lookup_singleton_eq.
Qed.

(** C7: with the endpoint "es1:9200", the indices logs-2023-01-01,
    logs-2023-01-05 and logs-2023-01-10, and the clock anywhere in
    2023-01-10, that is from 1673308800 seconds after the epoch to
    less than 86400 seconds later, the delete action is built once and
    run once on exactly logs-2023-01-01 and logs-2023-01-05, only
    logs-2023-01-10 is left in the cluster, and the program ends with
    status 0. *)
Theorem C7_scenario (prog : string) (s : Z) :
  0 ≤ s < 86400 →
  let argv := [prog; "es1:9200"] in
  let w0 := boot ["logs-2023-01-01"; "logs-2023-01-05"; "logs-2023-01-10"]
                 (1673308800 + s) [] in
  connections (history (final argv w0)) = [["es1:9200"]] ∧
  passed (history (final argv w0)) =
    [["logs-2023-01-01"; "logs-2023-01-05"]] ∧
  (λ a, sim_indices a.2 a.1) <$> actions (history (final argv w0)) =
    [["logs-2023-01-01"; "logs-2023-01-05"]] ∧
  cluster (world (final argv w0)) = ["logs-2023-01-10"] ∧
  outcome argv w0 = Completed ∧
  exit_status (outcome argv w0) = 0.
Proof.
  intros Hs argv w0. unfold outcome, final. subst argv w0.
  pose proof (run_deletes prog "es1:9200" [] scenario_indices scenario_old
                (1673308800 + s)) as Hrun.
  unfold scenario_indices, scenario_old in Hrun.
  rewrite Hrun; [|done..|by apply scenario_filter].
  repeat split; reflexivity.
Qed.

(** *** The theorems of the driver on concrete runs *)

Lemma C1_witness :
  passed (history (final script (boot scenario_indices jan10 []))) =
    [scenario_old] ∧
  outcome script (boot scenario_indices jan10 []) = Completed.
Proof.
  destruct (C1_delete_filtered_once (L := library)
              "esCleaner.py" "es1:9200" []
              (boot scenario_indices jan10 [])
              (boot scenario_indices jan10 [])
              (listed scenario_indices jan10 [])
              (filtered scenario_indices scenario_old jan10 [])
              ["es1:9200"] 0%nat)
    as (_ & Hpassed & Hrun);
    [reflexivity | reflexivity | discriminate | reflexivity
    | discriminate |].
  split; [exact Hpassed|].
  destruct (Hrun 0%nat (filtered scenario_indices scenario_old jan10 [])
              eq_refl) as [_ Hdone].
  exact (proj1 (Hdone _ eq_refl)).
Defined.

Lemma C2_witness :
  stdout (final script (boot [] jan10 [])) =
    ["ElasticSearch has no indices"] ∧
  outcome script (boot [] jan10 []) = Exited 0.
Proof.
  destruct (C2_empty_enumeration (L := library)
              "esCleaner.py" "es1:9200" []
              (boot [] jan10 []) (boot [] jan10 []) (listed [] jan10 [])
              ["es1:9200"] 0%nat)
    as (Hout & Hexit & _); [reflexivity..|].
  exact (conj Hout Hexit).
Defined.

Lemma C3_witness :
  stdout (final script (boot young_indices jan10 [])) =
    ["No indices to delete"] ∧
  outcome script (boot young_indices jan10 []) = Exited 0.
Proof.
  destruct (C3_empty_filter_result (L := library)
              "esCleaner.py" "es1:9200" []
              (boot young_indices jan10 []) (boot young_indices jan10 [])
              (listed young_indices jan10 [])
              (filtered young_indices [] jan10 [])
              ["es1:9200"] 0%nat)
    as (Hout & Hexit & _);
    [reflexivity | reflexivity | discriminate | reflexivity
    | reflexivity |].
  exact (conj Hout Hexit).
Defined.

Lemma C5_witness :
  outcome script (boot scenario_indices jan10 delete_refused) =
    Unhandled (OtherError "TransportError") ∧
  exit_status (outcome script (boot scenario_indices jan10 delete_refused))
    ≠ 0.
Proof.
  destruct (C5_other_errors_propagate (L := library) script
              (boot scenario_indices jan10 delete_refused)
              (failed (CallDoAction (L := library) 0%nat)
                      (filtered scenario_indices scenario_old jan10
                                delete_refused)
                      (OtherError "TransportError"))
              "TransportError")
    as (Hend & _ & _ & Hstatus);
    [apply (list_elem_of_lookup_2 _ 6%nat); reflexivity | reflexivity |].
  exact (conj Hend Hstatus).
Defined.

Lemma C6_witness :
  filter_configs (history (final script (boot scenario_indices 1673308800 []))) =
    [AgeFilter "name" "older" "%Y-%m-%d" "days" 4] ∧
  (issued <$> history (final script (boot scenario_indices 1673308800 []))
                !! 3%nat) =
    Some (CallFilterByAge (L := library) 0%nat
            (AgeFilter "name" "older" "%Y-%m-%d" "days" 4)).
Proof.
  destruct (C6_fixed_filter_configuration (L := library) script
              (boot scenario_indices 1673308800 [])) as (_ & _ & Hcalled).
  destruct (Hcalled "esCleaner.py" "es1:9200" [] ["es1:9200"]
              (boot scenario_indices 1673308800 []) 0%nat
              (listed scenario_indices 1673308800 [])
              (listed scenario_indices 1673308800 []))
    as (Hconfig & Hfourth & _); [reflexivity..|].
  exact (conj Hconfig Hfourth).
Defined.

Lemma C7_witness :
  passed (history (final ["esCleaner.py"; "es1:9200"]
                         (boot scenario_indices (1673308800 + 43200) []))) =
    [["logs-2023-01-01"; "logs-2023-01-05"]] ∧
  exit_status (outcome ["esCleaner.py"; "es1:9200"]
                       (boot scenario_indices (1673308800 + 43200) [])) = 0.
Proof.
  destruct (C7_scenario "esCleaner.py" 43200)
    as (_ & Hpassed & _ & _ & _ & Hstatus); [lia|].
  exact (conj Hpassed Hstatus).
Defined.

Lemma C9_witness :
  stdout (final script (boot young_indices jan10 [])) =
    ["No indices to delete"] ∧
  ∃ c w1 ilo w2,
    @IndexList library c w1 = (Returned ilo, w2) ∧
    indices w2 ilo ≠ [].
Proof.
  destruct (C9_at_most_one_message (L := library) script
              (boot young_indices jan10 []))
    as (_ & Hone & Hlisted).
  destruct (Hone "No indices to delete") as (Hout & _);
    [apply (list_elem_of_lookup_2 _ 0%nat); reflexivity | reflexivity |].
  split; [exact Hout|].
  destruct Hlisted as (_ & c & w1 & ilo & w2 & _ & Hlist & Hsome);
    [apply (list_elem_of_lookup_2 _ 0%nat); reflexivity|].
  exact (ex_intro _ c (ex_intro _ w1 (ex_intro _ ilo
           (ex_intro _ w2 (conj Hlist Hsome))))).
Defined.

Lemma C10_witness :
  outcome script (boot scenario_indices jan10 delete_finds_nothing) =
    Unhandled NoIndices ∧
  exit_status (outcome script
                 (boot scenario_indices jan10 delete_finds_nothing)) ≠ 0.
Proof.
  destruct (C10_no_indices_caught_only_at_checks (L := library) script
              (boot scenario_indices jan10 delete_finds_nothing)
              (failed (CallDoAction (L := library) 0%nat)
                      (filtered scenario_indices scenario_old jan10
                                delete_finds_nothing)
                      NoIndices))
    as (_ & _ & Hdelete);
    [apply (list_elem_of_lookup_2 _ 6%nat); reflexivity | reflexivity |].
  exact (Hdelete 0%nat eq_refl).
Defined.

(** *** The further properties on concrete runs *)

Lemma X3_witness :
  history (final script (boot scenario_indices jan10 delete_refused))
    !! 5%nat =
    Some (called (CallDeleteIndices (L := library) 0%nat)
            (filtered scenario_indices scenario_old jan10 delete_refused)) ∧
  raised (called (CallDeleteIndices (L := library) 0%nat)
            (filtered scenario_indices scenario_old jan10 delete_refused)) =
    None.
Proof.
  split; [reflexivity|].
  apply (X3_only_last_call_raises (L := library) script
           (boot scenario_indices jan10 delete_refused) 5%nat);
    [reflexivity | apply Nat.ltb_lt; reflexivity].
Defined.

Lemma X4_witness :
  ∃ c w1 w2,
    sim_Elasticsearch ["es1:9200"] (boot scenario_indices jan10 []) =
      (Returned c, w1) ∧
    history (final script (boot scenario_indices jan10 [])) !! 1%nat =
      Some (called (CallIndexList (L := library) c) w1) ∧
    sim_IndexList c w1 = (Returned 0%nat, w2).
Proof.
  apply (X4_one_index_list (L := library) script
           (boot scenario_indices jan10 [])
           (called (CallFilterByAge (L := library) 0%nat age_filter_config)
                   (listed scenario_indices jan10 [])));
    [apply (list_elem_of_lookup_2 _ 3%nat); reflexivity | reflexivity].
Defined.

Lemma X5_witness :
  actions (history (final script (boot scenario_indices jan10 []))) =
    [(0%nat, filtered scenario_indices scenario_old jan10 [])].
Proof.
  apply (X5_action_is_the_one_built (L := library) script
           (boot scenario_indices jan10 []) 0%nat
           (filtered scenario_indices scenario_old jan10 [])).
  apply (list_elem_of_lookup_2 _ 0%nat). reflexivity.
Defined.

Lemma X9_witness :
  sim_indices (filtered scenario_indices scenario_old jan10 []) 0 ≠ [].
Proof.
  apply (X9_delete_only_after_filter (L := library) script
           (boot scenario_indices jan10 []) 0%nat
           (filtered scenario_indices scenario_old jan10 [])).
  apply (list_elem_of_lookup_2 _ 0%nat). reflexivity.
Defined.

Lemma X10_witness :
  deletions (history (final script (boot young_indices jan10 []))) = [].
Proof.
  destruct (X10_messages_are_truthful (L := library) script
              (boot young_indices jan10 [])) as [_ Hnothing].
  apply Hnothing.
  apply (list_elem_of_lookup_2 _ 0%nat). reflexivity.
Defined.

End SimFacts.
